(** * shipquick: the streaming completion server (packages/server/index.ts)

    A shallow embedding of the two provider adapters
    [createDeepSeekCompletion] and [createDeepInfraCompletion], of the
    request object they send upstream, of the async-generator loop that
    turns upstream chunks into text fragments, and of the Socket.IO
    connection handler.

    Conventions.
    - A JavaScript [number] is a binary64 float ([PrimFloat.float]); the
      program only passes numbers through, it never computes with them.
    - A JavaScript object is the list of its property definitions in the
      order they are made; the value of a property is its last
      definition.  An object typed by an interface may own further
      properties than the interface declares, so the parameter objects
      and the request are such lists and not closed records.
    - An optional argument with a default ([params = DEFAULT_PARAMS]) is an
      [option]: [None] stands for "omitted or undefined".
    - A promise is a sum: [inl e] is a rejection with [e], [inr v] a
      resolution with [v].
    - An async generator is a state machine driven by [next]; the list of
      everything a consumer obtains by calling [next] until the generator
      finishes is its trace. *)

From Stdlib Require Import PrimFloat String Ascii List Bool Arith Lia.
Import ListNotations.
Open Scope string_scope.

(* Decimal literals such as 0.7 denote the nearest binary64 value; no
   induction scheme is needed for the nested type of values. *)
Set Warnings "-inexact-float,-register-all".

(** ** JavaScript values used by the server *)

Definition number := float.

(** The one-character string written ["\n"] in the source. *)
Definition newline : string := String (ascii_of_nat 10) EmptyString.

(** A parameter declared [x: T = d]: the default is taken exactly when the
    argument is omitted or [undefined]. *)
Definition default_arg {A : Type} (arg : option A) (d : A) : A :=
  match arg with
  | Some v => v
  | None => d
  end.

(** ** Values and objects *)

Inductive Value : Type :=
| VUndefined
| VNull
| VBool (b : bool)
| VNumber (n : number)
| VString (s : string)
| VArray (items : list Value)
| VObject (props : list (string * Value)).

(** An object: its property definitions, oldest first. *)
Definition Object : Type := list (string * Value).

(** [o[key]] for an own property: the last definition of [key], if any. *)
Fixpoint get (key : string) (o : Object) : option Value :=
  match o with
  | [] => None
  | (k, v) :: rest =>
      match get key rest with
      | Some later => Some later
      | None => if String.eqb k key then Some v else None
      end
  end.

(** [{ ...o, ...src }]: the own properties of [src] are defined anew, in
    order, after those of [o]. *)
Definition spread (src o : Object) : Object := (o ++ src)%list.

(** ** Completion parameters *)

Module Params.

(** [interface CompletionParams].  The interface declares four optional
    properties, top_p, max_tokens, stop and temperature; a value of this
    type is an object that may leave any of them out and may own other
    properties as well. *)
Definition CompletionParams : Type := Object.

(* 0.7 is read as the nearest binary64 value, as JavaScript does. *)
Definition DEFAULT_PARAMS : CompletionParams :=
  [ ("top_p", VNumber 1%float);
    ("max_tokens", VNumber 512%float);
    ("stop", VString newline);
    ("temperature", VNumber 0.7%float) ].

(** The object literal [{}]. *)
Definition empty : CompletionParams := [].

(** What the spec describes as the resolver, for one field: the caller's
    value if present and not undefined, else the default.  This
    definition follows the spec's words; the source has no such function
    and is compared with it below. *)
Definition spec_field_merge (caller defaults : CompletionParams)
  (field : string) : option Value :=
  match get field caller with
  | Some VUndefined | None => get field defaults
  | Some v => Some v
  end.

End Params.
Import Params.

(** ** The request sent upstream *)

(** [OpenAI.Chat.ChatCompletionMessageParam], reduced to the two
    properties the server writes. *)
Record Message : Type := mkMessage {
  role : string;
  content : string
}.

(** [{ role: ..., content: ... }] *)
Definition message_value (m : Message) : Value :=
  VObject [("role", VString (role m)); ("content", VString (content m))].

(** The argument of [chat.completions.create]. *)
Definition Request : Type := Object.

(** The object literal shared, text for text, by both adapters:
    [{ model, messages: [{ role: "system", content: systemPrompt },
    ...messages], stream: true, ...params }].  The spread comes last, so
    every own property of [params] is defined after the three written
    out, also one named model, messages or stream. *)
Definition completion_request (model : string) (systemPrompt : string)
  (messages : list Message) (params : CompletionParams) : Request :=
  spread params
    [ ("model", VString model);
      ("messages",
       VArray (map message_value
                 ({| role := "system"; content := systemPrompt |} :: messages)));
      ("stream", VBool true) ].

(** The argument of [deepseekClient.chat.completions.create] in
    [createDeepSeekCompletion], with the defaults of [params] and [model]
    applied. *)
Definition deepseek_request (systemPrompt : string) (messages : list Message)
  (params : option CompletionParams) (model : option string) : Request :=
  completion_request (default_arg model "deepseek-chat") systemPrompt messages
    (default_arg params DEFAULT_PARAMS).

(** The argument of [deepinfraClient.chat.completions.create] in
    [createDeepInfraCompletion]. *)
Definition deepinfra_request (systemPrompt : string) (messages : list Message)
  (params : option CompletionParams) (model : option string) : Request :=
  completion_request (default_arg model "google/gemma-2-9b-it") systemPrompt
    messages (default_arg params DEFAULT_PARAMS).

(** ** Upstream chunks *)

(** [chunk.choices[i].delta.content]; [delta] and [content] may be
    missing or null. *)
Record Delta : Type := mkDelta { delta_content : option string }.
Record Choice : Type := mkChoice { delta : option Delta }.
Record Chunk : Type := mkChunk { choices : list Choice }.

(** [chunk.choices[0]?.delta?.content] *)
Definition first_delta_content (chunk : Chunk) : option string :=
  match choices chunk with
  | [] => None
  | choice :: _ =>
      match delta choice with
      | None => None
      | Some d => delta_content d
      end
  end.

(** [v || ""] on a value that is a string, null or undefined: the empty
    string is falsy, like the two missing values. *)
Definition or_empty (v : option string) : string :=
  match v with
  | Some EmptyString => ""
  | Some s => s
  | None => ""
  end.

(** The operand of [yield] in the loop body. *)
Definition fragment_of (chunk : Chunk) : string :=
  or_empty (first_delta_content chunk).

(** A chunk whose first choice carries the given delta content. *)
Definition chunk_with (c : option string) : Chunk :=
  {| choices := [ {| delta := Some {| delta_content := c |} |} ] |}.

(** ** The upstream client *)

(** Why a call to the provider did not deliver: the three ways the
    initial request can fail, and a failure after the stream was opened. *)
Inductive UpstreamError : Type :=
| AuthenticationFailed
| ConnectionRefused
| BadStatus (status : nat)
| StreamBroken (detail : string).

(** How the upstream async iterable finishes once its chunks are read. *)
Inductive StreamEnd : Type :=
| EndOfStream
| StreamThrows (e : UpstreamError).

(** The value of [await client.chat.completions.create(...)] when it
    resolves: the chunks the provider will deliver, then how it ends. *)
Record UpstreamStream : Type := mkStream {
  stream_chunks : list Chunk;
  stream_end : StreamEnd
}.

(** The options object written as the argument of [new OpenAI(...)]:
    [{ apiKey: process.env.<KEY>, baseURL: "<url>" }].  What the SDK makes
    of the options is not part of the server: it reads further
    environment variables of its own (an undefined [apiKey] falls back to
    OPENAI_API_KEY) and refuses to construct a client without any key, in
    which case the module does not load and no adapter exists.  All of
    that is on the far side of the [network] parameter below. *)
Record ClientConfig : Type := mkClient {
  apiKey : option string;
  baseURL : string
}.

(** ** Async generators *)

(** What one call of [next()] settles to. *)
Inductive IterResult : Type :=
| Yielded (value : string)
| Returned
| Thrown (e : UpstreamError).

(** Where the body of an adapter is suspended. *)
Inductive Generator : Type :=
| NotStarted (client : ClientConfig) (request : Request)
| InLoop (rest : list Chunk) (ending : StreamEnd)
| Finished.

(** Everything a consumer sees when it iterates a generator to its end. *)
Record Trace : Type := mkTrace {
  fragments : list string;
  completion : IterResult
}.

Section Adapters.

(** The process environment and the network are outside the program.
    [network options request] is how
    [new OpenAI(options).chat.completions.create(request)] settles. *)
Variable env : string -> option string.
Variable network : ClientConfig -> Request -> UpstreamError + UpstreamStream.

Definition deepseekClient : ClientConfig :=
  {| apiKey := env "DEEPSEEK_API_KEY";
     baseURL := "https://api.deepseek.com" |}.

Definition deepinfraClient : ClientConfig :=
  {| apiKey := env "DEEPINFRA_API_KEY";
     baseURL := "https://api.deepinfra.com/v1/openai" |}.

(** One turn of [for await (const chunk of stream) { yield ... }]. *)
Definition loop_next (rest : list Chunk) (ending : StreamEnd)
  : IterResult * Generator :=
  match rest with
  | chunk :: rest' => (Yielded (fragment_of chunk), InLoop rest' ending)
  | [] =>
      match ending with
      | EndOfStream => (Returned, Finished)
      | StreamThrows e => (Thrown e, Finished)
      end
  end.

(** [next()]: run the body up to its next [yield], return or throw.
    The body has no try/catch, so a rejected [await] finishes the
    generator with that rejection. *)
Definition next (g : Generator) : IterResult * Generator :=
  match g with
  | NotStarted client request =>
      match network client request with
      | inl e => (Thrown e, Finished)
      | inr stream => loop_next (stream_chunks stream) (stream_end stream)
      end
  | InLoop rest ending => loop_next rest ending
  | Finished => (Returned, Finished)
  end.

(** A consumer that calls [next()] at most [fuel] times and stops at the
    first result that is not a yield; [None] when the fuel runs out
    first. *)
Fixpoint iterate (fuel : nat) (g : Generator) : option Trace :=
  match fuel with
  | O => None
  | S fuel' =>
      match next g with
      | (Yielded v, g') =>
          match iterate fuel' g' with
          | Some t => Some {| fragments := v :: fragments t;
                              completion := completion t |}
          | None => None
          end
      | (r, _) => Some {| fragments := []; completion := r |}
      end
  end.

(** The trace of the loop over a given upstream stream, in closed form. *)
Definition loop_trace (chunks : list Chunk) (ending : StreamEnd) : Trace :=
  {| fragments := map fragment_of chunks;
     completion := match ending with
                   | EndOfStream => Returned
                   | StreamThrows e => Thrown e
                   end |}.

(** The trace of a generator that has not started. *)
Definition start_trace (client : ClientConfig) (request : Request) : Trace :=
  match network client request with
  | inl e => {| fragments := []; completion := Thrown e |}
  | inr stream => loop_trace (stream_chunks stream) (stream_end stream)
  end.

(** [async function* createDeepSeekCompletion(systemPrompt, messages,
    params = DEFAULT_PARAMS, model = "deepseek-chat")] *)
Definition createDeepSeekCompletion (systemPrompt : string)
  (messages : list Message) (params : option CompletionParams)
  (model : option string) : Generator :=
  NotStarted deepseekClient
    (deepseek_request systemPrompt messages params model).

(** [async function* createDeepInfraCompletion(systemPrompt, messages,
    params = DEFAULT_PARAMS, model = "google/gemma-2-9b-it")] *)
Definition createDeepInfraCompletion (systemPrompt : string)
  (messages : list Message) (params : option CompletionParams)
  (model : option string) : Generator :=
  NotStarted deepinfraClient
    (deepinfra_request systemPrompt messages params model).

(** The complete trace of a generator, whatever state it is in. *)
Definition trace_of (g : Generator) : Trace :=
  match g with
  | NotStarted client request => start_trace client request
  | InLoop rest ending => loop_trace rest ending
  | Finished => {| fragments := []; completion := Returned |}
  end.

(** Calls of [next()] needed to reach the end of a generator. *)
Definition calls_needed (g : Generator) : nat :=
  S (length (fragments (trace_of g))).

End Adapters.

(** What the first [next()] of an adapter settles to, given how its
    provider call settled. *)
Definition first_result (answer : UpstreamError + UpstreamStream)
  : IterResult * Generator :=
  match answer with
  | inl e => (Thrown e, Finished)
  | inr stream => loop_next (stream_chunks stream) (stream_end stream)
  end.

(** A generator sends [request] upstream through [client]: whatever the
    network is, its first [next()] settles as the answer of the network
    to exactly this request through this client makes it settle. *)
Definition sends_upstream (g : Generator) (client : ClientConfig)
  (request : Request) : Prop :=
  forall network : ClientConfig -> Request -> UpstreamError + UpstreamStream,
    next network g = first_result (network client request).

(** The two adapters, to state a property of each of them. *)
Inductive Provider : Type :=
| DeepSeek
| DeepInfra.

Definition provider_client (env : string -> option string) (p : Provider)
  : ClientConfig :=
  match p with
  | DeepSeek => deepseekClient env
  | DeepInfra => deepinfraClient env
  end.

Definition provider_request (p : Provider) (systemPrompt : string)
  (messages : list Message) (params : option CompletionParams)
  (model : option string) : Request :=
  match p with
  | DeepSeek => deepseek_request systemPrompt messages params model
  | DeepInfra => deepinfra_request systemPrompt messages params model
  end.

Definition createCompletion (p : Provider) (env : string -> option string)
  (systemPrompt : string) (messages : list Message)
  (params : option CompletionParams) (model : option string) : Generator :=
  match p with
  | DeepSeek => createDeepSeekCompletion env systemPrompt messages params model
  | DeepInfra => createDeepInfraCompletion env systemPrompt messages params model
  end.

(** ** The Socket.IO connection handler *)

Module Socket.

(** What reaches a connected socket: a packet emitted by the client (an
    event name, its string argument and an acknowledgement callback, the
    shape [ClientToServerEvents] gives to [hello]), or one of the two
    events the transport raises itself. *)
Inductive SocketEvent : Type :=
| ClientEvent (name : string) (text : string)
| Disconnect (reason : string)
| SocketError (error : string).

(** What the server can do in return.  [Emit] is [socket.emit] and
    [StartCompletion] a call of one of the two adapters; the handler
    below contains neither, they are here so that their absence can be
    stated. *)
Inductive Effect : Type :=
| ConsoleLog (line : string)
| ConsoleError (line : string) (error : string)
| Callback (response : string)
| Emit (event : string) (payload : string)
| StartCompletion (g : Generator).

(** [socket.on("hello", (text, callback) => { callback(`hello ${text}`) })] *)
Definition on_hello (text : string) : list Effect :=
  [Callback ("hello " ++ text)].

(** [socket.on("disconnect", (reason) => { console.log(...) })] *)
Definition on_disconnect (id reason : string) : list Effect :=
  [ConsoleLog ("Client disconnected [id: " ++ id ++ "], reason: " ++ reason)].

(** [socket.on("error", (error) => { console.error(..., error) })] *)
Definition on_error (id error : string) : list Effect :=
  [ConsoleError ("socket error [id: " ++ id ++ "]:") error].

(** The listeners registered in [io.on("connection", ...)], by event
    name.  A socket is one event emitter: a listener is found by the
    name of the event alone. *)
Definition listener (id name : string) : option (string -> list Effect) :=
  if String.eqb name "hello" then Some on_hello
  else if String.eqb name "disconnect" then Some (on_disconnect id)
  else if String.eqb name "error" then Some (on_error id)
  else None.

(** Emission of one event on the socket.  An event name without a
    listener runs no code. *)
Definition emit_event (id name argument : string) : list Effect :=
  match listener id name with
  | Some run => run argument
  | None => []
  end.

(** Dispatch of what reaches the socket.  A packet of the client is
    emitted under the name it carries, so a client event named error
    runs the error listener; the transport emits disconnect and error. *)
Definition handle (id : string) (ev : SocketEvent) : list Effect :=
  match ev with
  | ClientEvent name text => emit_event id name text
  | Disconnect reason => emit_event id "disconnect" reason
  | SocketError error => emit_event id "error" error
  end.

(** The body of the connection callback before any event arrives. *)
Definition on_connection (id : string) : list Effect :=
  [ConsoleLog ("Client connected [id: " ++ id ++ "]")].

(** All effects of one connection that receives the given events. *)
Definition connection_effects (id : string) (events : list SocketEvent)
  : list Effect :=
  (on_connection id ++ flat_map (handle id) events)%list.

(** Effects that the client can observe. *)
Definition client_visible (eff : Effect) : bool :=
  match eff with
  | Callback _ | Emit _ _ => true
  | _ => false
  end.

Definition starts_stream (eff : Effect) : bool :=
  match eff with
  | StartCompletion _ => true
  | _ => false
  end.

(** Number of upstream completion streams a list of effects opens. *)
Definition streams_started (effs : list Effect) : nat :=
  length (filter starts_stream effs).



End Socket.
Import Socket.

(** ** Stand-ins for the outside world, used in the examples *)

(** An environment holding the two keys the server reads. *)
Definition stub_env : string -> option string :=
  fun name =>
    if String.eqb name "DEEPSEEK_API_KEY" then Some "key-of-deepseek"
    else if String.eqb name "DEEPINFRA_API_KEY" then Some "key-of-deepinfra"
    else None.

(** A provider that answers every request the same way. *)
Definition stub_network (answer : UpstreamError + UpstreamStream)
  : ClientConfig -> Request -> UpstreamError + UpstreamStream :=
  fun _ _ => answer.

(** A network on which DeepSeek gives the answer and every other
    endpoint refuses the connection. *)
Definition deepseek_only (answer : UpstreamError + UpstreamStream)
  : ClientConfig -> Request -> UpstreamError + UpstreamStream :=
  fun client _ =>
    if String.eqb (baseURL client) "https://api.deepseek.com" then answer
    else inl ConnectionRefused.

Definition stream_of (contents : list (option string)) : UpstreamStream :=
  {| stream_chunks := map chunk_with contents; stream_end := EndOfStream |}.

(** The chunk contents ["Hello", "", " world", undefined]. *)
Definition hello_world_contents : list (option string) :=
  [Some "Hello"; Some ""; Some " world"; None].

(** Parameters in which the caller sets top_p only: [{ top_p: 0.5 }]. *)
Definition only_top_p : CompletionParams :=
  [("top_p", VNumber 0.5%float)].


(** ** Consumers and startup code used by the further properties *)

(** The results of [k] successive calls of [next()] on a generator. *)
Fixpoint call_next
  (network : ClientConfig -> Request -> UpstreamError + UpstreamStream)
  (k : nat) (g : Generator) : list IterResult :=
  match k with
  | O => []
  | S k' => fst (next network g) :: call_next network k' (snd (next network g))
  end.

(** Whether the body of a generator has begun to run. *)
Definition started (g : Generator) : bool :=
  match g with
  | NotStarted _ _ => false
  | _ => true
  end.

(** The text a client obtains by appending the fragments it receives. *)
Definition join (pieces : list string) : string :=
  fold_right String.append "" pieces.

Definition nonempty (s : string) : bool :=
  match s with
  | EmptyString => false
  | String _ _ => true
  end.

(** The non-empty delta contents of the chunks' first choices, in order. *)
Definition present_contents (chunks : list Chunk) : list string :=
  flat_map (fun chunk =>
              match first_delta_content chunk with
              | Some (String a s) => [String a s]
              | Some EmptyString | None => []
              end) chunks.

(** The texts of the hello events among the events of a connection. *)
Definition hello_texts (events : list SocketEvent) : list string :=
  flat_map (fun ev =>
              match ev with
              | ClientEvent name text =>
                  if String.eqb name "hello" then [text] else []
              | _ => []
              end) events.

(** [v || d] on a string that may be undefined. *)
Definition or_else (v : option string) (d : string) : string :=
  match v with
  | Some (String a s) => String a s
  | Some EmptyString | None => d
  end.

Section Startup.

(** [parseInt] is a built-in of the language, taken as given. *)
Variable env : string -> option string.
Variable parseInt : string -> number.

(** [const port = parseInt(process.env.SOCKETIO_PORT || "3001")] *)
Definition port : number :=
  parseInt (or_else (env "SOCKETIO_PORT") "3001").

End Startup.

(** * Properties *)

(** ** The generator loop *)

Section LoopFacts.

Variable network : ClientConfig -> Request -> UpstreamError + UpstreamStream.

Lemma iterate_yield (fuel : nat) (chunk : Chunk) (rest : list Chunk)
  (ending : StreamEnd) (t : Trace) :
  iterate network fuel (InLoop rest ending) = Some t ->
  iterate network (S fuel) (InLoop (chunk :: rest) ending)
  = Some {| fragments := fragment_of chunk :: fragments t;
            completion := completion t |}.
Proof. intros Hrest. cbn [iterate next loop_next]. rewrite Hrest. reflexivity. Qed.

Lemma iterate_loop (chunks : list Chunk) (ending : StreamEnd) (extra : nat) :
  iterate network (S (length chunks + extra)) (InLoop chunks ending)
  = Some (loop_trace chunks ending).
Proof.
  induction chunks as [| chunk rest IH].
  - destruct ending; reflexivity.
  - cbn [length Nat.add]. apply (iterate_yield _ _ _ _ _ IH).
Qed.

Lemma iterate_start (client : ClientConfig) (request : Request) (extra : nat) :
  iterate network (calls_needed network (NotStarted client request) + extra)
    (NotStarted client request)
  = Some (start_trace network client request).
Proof.
  unfold calls_needed, trace_of, start_trace.
  destruct (network client request) as [e | stream] eqn:Hnet.
  - cbn [fragments length Nat.add iterate next]. rewrite Hnet. reflexivity.
  - cbn [loop_trace fragments]. rewrite length_map.
    destruct (stream_chunks stream) as [| chunk rest] eqn:Hchunks.
    + cbn [length Nat.add iterate next]. rewrite Hnet, Hchunks.
      destruct (stream_end stream); reflexivity.
    + cbn [length Nat.add].
      pose proof (iterate_loop rest (stream_end stream) extra) as Hrest.
      revert Hrest. generalize (S (length rest + extra)). intros fuel Hrest.
      cbn [iterate next]. rewrite Hnet, Hchunks. cbn [loop_next].
      rewrite Hrest. reflexivity.
Qed.

(** Iterating any generator terminates, and with enough calls of
    [next()] the consumer has seen exactly its trace. *)
Lemma iterate_total (g : Generator) (fuel : nat) :
  calls_needed network g <= fuel ->
  iterate network fuel g = Some (trace_of network g).
Proof.
  intros Hfuel.
  replace fuel with (calls_needed network g + (fuel - calls_needed network g))
    by lia.
  destruct g as [client request | rest ending |].
  - apply iterate_start.
  - unfold calls_needed, trace_of. cbn [loop_trace fragments].
    rewrite length_map. apply (iterate_loop rest ending).
  - reflexivity.
Qed.

End LoopFacts.

(** ** Requests and accepted calls *)

Lemma get_spread (key : string) (src o : Object) :
  get key (spread src o)
  = match get key src with
    | Some v => Some v
    | None => get key o
    end.
Proof.
  unfold spread. induction o as [| [k v] rest IH].
  - cbn [app get]. destruct (get key src); reflexivity.
  - cbn [app get]. rewrite IH.
    destruct (get key src); reflexivity.
Qed.

Lemma createCompletion_start (provider : Provider)
  (env : string -> option string)
  (systemPrompt : string) (messages : list Message)
  (params : option CompletionParams) (model : option string) :
  createCompletion provider env systemPrompt messages params model
  = NotStarted (provider_client env provider)
      (provider_request provider systemPrompt messages params model).
Proof. destruct provider; reflexivity. Qed.

Lemma start_sends_upstream (client : ClientConfig) (request : Request) :
  sends_upstream (NotStarted client request) client request.
Proof. intros network. reflexivity. Qed.

Lemma iterate_accepted
  (network : ClientConfig -> Request -> UpstreamError + UpstreamStream)
  (client : ClientConfig) (request : Request) (upstream : UpstreamStream)
  (fuel : nat) :
  network client request = inr upstream ->
  length (stream_chunks upstream) < fuel ->
  iterate network fuel (NotStarted client request)
  = Some (loop_trace (stream_chunks upstream) (stream_end upstream)).
Proof.
  intros Hnet Hfuel. rewrite iterate_total.
  - unfold trace_of, start_trace. now rewrite Hnet.
  - unfold calls_needed, trace_of, start_trace. rewrite Hnet.
    cbn [loop_trace fragments]. rewrite length_map. lia.
Qed.

(** ** The connection handler *)



Lemma emit_event_cases (id name argument : string) :
  emit_event id name argument = on_hello argument
  \/ emit_event id name argument = on_disconnect id argument
  \/ emit_event id name argument = on_error id argument
  \/ emit_event id name argument = [].
Proof.
  unfold emit_event, listener.
  destruct (String.eqb name "hello"); [now left |].
  destruct (String.eqb name "disconnect"); [now right; left |].
  destruct (String.eqb name "error"); [now right; right; left |].
  now right; right; right.
Qed.

Lemma handle_cases (id : string) (ev : SocketEvent) :
  exists name argument, handle id ev = emit_event id name argument.
Proof.
  destruct ev as [name text | reason | error]; cbn [handle]; eauto.
Qed.

Lemma handle_starts_no_stream (id : string) (ev : SocketEvent) :
  filter starts_stream (handle id ev) = [].
Proof.
  destruct (handle_cases id ev) as [name [argument ->]].
  destruct (emit_event_cases id name argument) as [-> | [-> | [-> | ->]]];
    reflexivity.
Qed.


(** ** C1: which chunks produce a fragment *)

(** C1, as stated, fails: with upstream chunk contents
    ["Hello", "", " world", undefined] the DeepSeek adapter yields four
    fragments, "Hello", "", " world", "", and not the two fragments
    "Hello", " world": the chunks with empty or absent content are not
    skipped, each yields the empty string. *)
Lemma empty_chunks_are_yielded :
  let seen :=
    iterate (stub_network (inr (stream_of hello_world_contents))) 5
      (createDeepSeekCompletion stub_env "You are helpful." [] None None) in
  option_map fragments seen = Some ["Hello"; ""; " world"; ""]
  /\ option_map fragments seen <> Some ["Hello"; " world"].
Proof.
  split.
  - reflexivity.
  - cbn. intros Heq. discriminate Heq.
Qed.

(** C1, amended: whatever the upstream delivers to an adapter, the
    adapter yields exactly one fragment per chunk, in order; the fragment
    is the delta content of the chunk's first choice when it is present
    and non-empty, and the empty string when it is empty or absent (or
    when the chunk has no choice or no delta).  This holds of each of the
    two adapters on its own provider, whatever the other provider does.
    For the contents ["Hello", "", " world", undefined] the fragments are
    "Hello", "", " world", "". *)
Theorem normalizer_yields_every_chunk
  (provider : Provider)
  (env : string -> option string)
  (network : ClientConfig -> Request -> UpstreamError + UpstreamStream)
  (systemPrompt : string) (messages : list Message)
  (params : option CompletionParams) (model : option string)
  (upstream : UpstreamStream) (fuel : nat) :
  let fragment_for (chunk : Chunk) :=
    match first_delta_content chunk with
    | Some (String a s) => String a s
    | Some EmptyString | None => ""
    end in
  network (provider_client env provider)
    (provider_request provider systemPrompt messages params model)
  = inr upstream ->
  length (stream_chunks upstream) < fuel ->
  option_map fragments
    (iterate network fuel
       (createCompletion provider env systemPrompt messages params model))
  = Some (map fragment_for (stream_chunks upstream))
  /\ map fragment_for (map chunk_with hello_world_contents)
     = ["Hello"; ""; " world"; ""].
Proof.
  intros fragment_for Hnet Hfuel. split; [| reflexivity].
  rewrite createCompletion_start.
  rewrite (iterate_accepted network _ _ upstream fuel Hnet Hfuel).
  cbn [option_map loop_trace fragments]. f_equal.
  apply map_ext. intros chunk. unfold fragment_of, fragment_for.
  destruct (first_delta_content chunk) as [[| a s] |]; reflexivity.
Qed.

Lemma normalizer_yields_every_chunk_witness :
  option_map fragments
    (iterate (deepseek_only (inr (stream_of hello_world_contents))) 5
       (createDeepSeekCompletion stub_env "You are helpful." [] None None))
  = Some ["Hello"; ""; " world"; ""].
Proof.
  apply (normalizer_yields_every_chunk DeepSeek stub_env
           (deepseek_only (inr (stream_of hello_world_contents)))
           "You are helpful." [] None None
           (stream_of hello_world_contents) 5).
  - reflexivity.
  - simpl. lia.
Defined.

(** ** C6: one fragment per chunk, in upstream order *)

(** C6: once the DeepSeek adapter has its upstream stream, every call of
    [next()] consumes exactly one chunk and yields that chunk's fragment,
    so nothing is buffered or merged; iterating to the end gives as many
    fragments as there were chunks, the i-th fragment is the one of the
    i-th chunk, and the first k fragments depend on the first k chunks
    only. *)
Theorem fragments_follow_chunk_order
  (env : string -> option string)
  (network : ClientConfig -> Request -> UpstreamError + UpstreamStream)
  (systemPrompt : string) (messages : list Message)
  (params : option CompletionParams) (model : option string)
  (upstream : UpstreamStream) :
  network (deepseekClient env)
    (deepseek_request systemPrompt messages params model) = inr upstream ->
  (forall chunk rest,
      next network (InLoop (chunk :: rest) (stream_end upstream))
      = (Yielded (fragment_of chunk), InLoop rest (stream_end upstream)))
  /\ exists t,
      iterate network (S (length (stream_chunks upstream)))
        (createDeepSeekCompletion env systemPrompt messages params model)
      = Some t
      /\ length (fragments t) = length (stream_chunks upstream)
      /\ (forall i, nth_error (fragments t) i
                    = option_map fragment_of (nth_error (stream_chunks upstream) i))
      /\ (forall k, firstn k (fragments t)
                    = map fragment_of (firstn k (stream_chunks upstream))).
Proof.
  intros Hnet. split; [reflexivity |].
  exists (loop_trace (stream_chunks upstream) (stream_end upstream)).
  split.
  - rewrite iterate_total.
    + unfold createDeepSeekCompletion, trace_of, start_trace. now rewrite Hnet.
    + unfold createDeepSeekCompletion, calls_needed, trace_of, start_trace.
      rewrite Hnet. cbn [loop_trace fragments]. rewrite length_map. lia.
  - cbn [loop_trace fragments]. repeat split.
    + apply length_map.
    + intros i. apply nth_error_map.
    + intros k. apply firstn_map.
Qed.

Lemma fragments_follow_chunk_order_witness :
  exists t,
    iterate (stub_network (inr (stream_of [Some "Hel"; Some "lo"]))) 3
      (createDeepSeekCompletion stub_env "You are helpful."
         [{| role := "user"; content := "Hi" |}] (Some Params.empty) None)
    = Some t
    /\ fragments t = ["Hel"; "lo"].
Proof.
  destruct (fragments_follow_chunk_order stub_env
              (stub_network (inr (stream_of [Some "Hel"; Some "lo"])))
              "You are helpful." [{| role := "user"; content := "Hi" |}]
              (Some Params.empty) None (stream_of [Some "Hel"; Some "lo"])
              eq_refl)
    as [_ [t [Hrun [_ [_ Hprefix]]]]].
  exists t. split.
  - exact Hrun.
  - rewrite <- (firstn_all (fragments t)).
    rewrite Hprefix.
    vm_compute in Hrun. injection Hrun as <-. reflexivity.
Defined.

(** ** C5: the system prompt comes first *)




(** ** C8: the defaults used when no parameters are given *)

(** C8: when the [params] argument is omitted, the request that either
    adapter sends upstream through its own client carries top_p = 1,
    max_tokens = 512, stop = "\n" (one newline character) and
    temperature = 0.7. *)
Theorem default_parameters_when_omitted
  (provider : Provider)
  (env : string -> option string)
  (systemPrompt : string) (messages : list Message) (model : option string) :
  exists request,
    sends_upstream
      (createCompletion provider env systemPrompt messages None model)
      (provider_client env provider) request
    /\ get "top_p" request = Some (VNumber 1%float)
    /\ get "max_tokens" request = Some (VNumber 512%float)
    /\ get "stop" request = Some (VString (String (ascii_of_nat 10) ""))
    /\ get "temperature" request = Some (VNumber 0.7%float).
Proof.
  exists (provider_request provider systemPrompt messages None model).
  split.
  - rewrite createCompletion_start. apply start_sends_upstream.
  - destruct provider; repeat split.
Qed.

(** ** C2: how the caller's parameters reach the request *)

(** C2, as stated, fails: when the caller passes [{ top_p: 0.5 }], the
    request the DeepSeek adapter sends upstream carries top_p = 0.5 and
    no max_tokens at all, where the field-by-field merge of the claim
    gives max_tokens = 512. *)
Lemma partial_params_get_no_defaults :
  let request :=
    deepseek_request "You are helpful." [] (Some only_top_p) None in
  sends_upstream
    (createDeepSeekCompletion stub_env "You are helpful." []
       (Some only_top_p) None)
    (deepseekClient stub_env) request
  /\ get "top_p" request = Some (VNumber 0.5%float)
  /\ get "max_tokens" request = None
  /\ spec_field_merge only_top_p DEFAULT_PARAMS "max_tokens"
     = Some (VNumber 512%float)
  /\ get "max_tokens" request
     <> spec_field_merge only_top_p DEFAULT_PARAMS "max_tokens".
Proof.
  cbn zeta. repeat split.
  intros Heq. discriminate Heq.
Qed.

(** C2, amended: the default parameter set stands in for the caller's
    parameter object as a whole, not field by field.  In the request an
    adapter sends upstream, each of top_p, max_tokens, stop and
    temperature is as the caller's parameter object has it when the
    caller passes one (the caller's value if the object owns the field,
    no property at all otherwise), and as the default set has it when
    the caller passes none.  Each field sent depends on the same field of
    that one object only, and both adapters resolve parameters alike. *)
Theorem params_replace_defaults_as_a_whole
  (provider : Provider)
  (env : string -> option string)
  (systemPrompt : string) (messages : list Message)
  (params : option CompletionParams) (model : option string) :
  exists request,
    sends_upstream
      (createCompletion provider env systemPrompt messages params model)
      (provider_client env provider) request
    /\ match params with
       | Some caller =>
           get "top_p" request = get "top_p" caller
           /\ get "max_tokens" request = get "max_tokens" caller
           /\ get "stop" request = get "stop" caller
           /\ get "temperature" request = get "temperature" caller
       | None =>
           get "top_p" request = get "top_p" DEFAULT_PARAMS
           /\ get "max_tokens" request = get "max_tokens" DEFAULT_PARAMS
           /\ get "stop" request = get "stop" DEFAULT_PARAMS
           /\ get "temperature" request = get "temperature" DEFAULT_PARAMS
       end.
Proof.
  exists (provider_request provider systemPrompt messages params model).
  split.
  - rewrite createCompletion_start. apply start_sends_upstream.
  - destruct params as [caller |].
    + destruct provider; cbn [provider_request];
        unfold deepseek_request, deepinfra_request, completion_request;
        cbn [default_arg]; rewrite !get_spread;
        repeat split;
        match goal with
        | |- match ?g with _ => _ end = _ => destruct g; reflexivity
        end.
    + destruct provider; repeat split.
Qed.

(** ** C7: a request that cannot be established *)

(** C7: when the provider call of an adapter is rejected (authentication
    failure, refused connection, non-2xx answer), the first [next()] on
    the adapter's generator is rejected with that very error and the
    generator is finished; a consumer sees no fragment and a thrown
    error, never a normal end of an empty sequence.  This holds of each
    adapter on its own provider, whatever the other provider does. *)
Theorem rejected_request_is_thrown
  (provider : Provider)
  (env : string -> option string)
  (network : ClientConfig -> Request -> UpstreamError + UpstreamStream)
  (systemPrompt : string) (messages : list Message)
  (params : option CompletionParams) (model : option string)
  (e : UpstreamError) (fuel : nat) :
  network (provider_client env provider)
    (provider_request provider systemPrompt messages params model)
  = inl e ->
  0 < fuel ->
  next network
    (createCompletion provider env systemPrompt messages params model)
  = (Thrown e, Finished)
  /\ iterate network fuel
       (createCompletion provider env systemPrompt messages params model)
     = Some {| fragments := []; completion := Thrown e |}.
Proof.
  intros Hnet Hfuel.
  destruct fuel as [| fuel']; [lia |].
  rewrite createCompletion_start.
  cbn [iterate next]. rewrite Hnet. split; reflexivity.
Qed.

(** DeepInfra is down while DeepSeek is up. *)
Lemma rejected_request_is_thrown_witness :
  iterate (deepseek_only (inr (stream_of hello_world_contents))) 1
    (createDeepInfraCompletion stub_env "You are helpful." [] None None)
  = Some {| fragments := []; completion := Thrown ConnectionRefused |}.
Proof.
  apply (rejected_request_is_thrown DeepInfra stub_env
           (deepseek_only (inr (stream_of hello_world_contents)))
           "You are helpful." [] None None ConnectionRefused 1).
  - reflexivity.
  - lia.
Defined.

(** ** C9: the two adapters behave alike *)

(** C9: if the two providers answer alike (the same rejection, or the same
    chunks ending the same way), a consumer sees the same results from
    [createDeepSeekCompletion] and from [createDeepInfraCompletion] called
    with the same arguments, however many times it calls [next()].  The
    two generators differ in their client and, when no model is given, in
    the model name of the request, and in nothing else. *)
Theorem adapters_yield_alike
  (env : string -> option string)
  (network : ClientConfig -> Request -> UpstreamError + UpstreamStream)
  (systemPrompt : string) (messages : list Message)
  (params : option CompletionParams) (model : option string)
  (name : string) (fuel : nat) :
  network (deepseekClient env)
    (deepseek_request systemPrompt messages params model)
  = network (deepinfraClient env)
      (deepinfra_request systemPrompt messages params model) ->
  iterate network fuel
    (createDeepSeekCompletion env systemPrompt messages params model)
  = iterate network fuel
      (createDeepInfraCompletion env systemPrompt messages params model)
  /\ deepseek_request systemPrompt messages params (Some name)
     = deepinfra_request systemPrompt messages params (Some name)
  /\ deepseek_request systemPrompt messages params None
     = completion_request "deepseek-chat" systemPrompt messages
         (default_arg params DEFAULT_PARAMS)
  /\ deepinfra_request systemPrompt messages params None
     = completion_request "google/gemma-2-9b-it" systemPrompt messages
         (default_arg params DEFAULT_PARAMS).
Proof.
  intros Hsame. repeat split.
  destruct fuel as [| fuel']; [reflexivity |].
  unfold createDeepSeekCompletion, createDeepInfraCompletion.
  cbn [iterate next]. rewrite Hsame. reflexivity.
Qed.

Lemma adapters_yield_alike_witness :
  iterate (stub_network (inr (stream_of hello_world_contents))) 5
    (createDeepSeekCompletion stub_env "You are helpful." [] None None)
  = iterate (stub_network (inr (stream_of hello_world_contents))) 5
      (createDeepInfraCompletion stub_env "You are helpful." [] None None).
Proof.
  apply (adapters_yield_alike stub_env
           (stub_network (inr (stream_of hello_world_contents)))
           "You are helpful." [] None None "deepseek-chat" 5).
  reflexivity.
Defined.

(** ** C10: the hello event *)

(** C10: for every text, a hello event makes the server call the
    acknowledgement callback once, with "hello " followed by the text, and
    do nothing else, whatever events the connection received before. *)
Theorem hello_is_acknowledged_once
  (id text : string) (history : list SocketEvent) :
  handle id (ClientEvent "hello" text) = [Callback ("hello " ++ text)]
  /\ connection_effects id (history ++ [ClientEvent "hello" text])
     = (connection_effects id history ++ [Callback ("hello " ++ text)])%list.
Proof.
  split.
  - reflexivity.
  - unfold connection_effects.
    rewrite flat_map_app, app_assoc. cbn [flat_map handle String.eqb].
    reflexivity.
Qed.

(** ** C4: completion requests on a connection *)





(** * Further properties of the adapters *)

Section NextFacts.

Variable network : ClientConfig -> Request -> UpstreamError + UpstreamStream.

Lemma call_next_finished (k : nat) :
  call_next network k Finished = repeat Returned k.
Proof.
  induction k as [| k IH]; [reflexivity |].
  cbn [call_next next fst snd repeat]. now rewrite IH.
Qed.

Lemma call_next_loop (chunks : list Chunk) (ending : StreamEnd) (k : nat) :
  call_next network k (InLoop chunks ending)
  = map (fun i =>
           nth i (map Yielded (fragments (loop_trace chunks ending))
                    ++ [completion (loop_trace chunks ending)]) Returned)
      (seq 0 k).
Proof.
  revert k. induction chunks as [| chunk rest IH]; intros [| k].
  - reflexivity.
  - cbn [call_next next loop_next].
    replace (snd (match ending with
                  | EndOfStream => (Returned, Finished)
                  | StreamThrows e => (Thrown e, Finished)
                  end)) with Finished by (destruct ending; reflexivity).
    rewrite call_next_finished.
    cbn [seq map loop_trace fragments completion app nth].
    f_equal; [destruct ending; reflexivity |].
    rewrite <- seq_shift, map_map.
    rewrite (map_ext _ (fun _ => Returned))
      by (intros [| i]; reflexivity).
    clear. generalize 0. induction k as [| k IH]; intros start.
    + reflexivity.
    + cbn [repeat seq map]. now rewrite <- IH.
  - reflexivity.
  - cbn [call_next next loop_next fst snd]. rewrite IH.
    cbn [seq map]. f_equal.
    rewrite <- seq_shift, map_map. reflexivity.
Qed.

Lemma next_started (g : Generator) : started (snd (next network g)) = true.
Proof.
  destruct g as [client request | [| chunk rest] ending |]; cbn [next].
  - destruct (network client request) as [e | [[| chunk rest] ending]];
      cbn [loop_next stream_chunks stream_end]; try reflexivity;
      destruct ending; reflexivity.
  - cbn [loop_next]. destruct ending; reflexivity.
  - reflexivity.
  - reflexivity.
Qed.

End NextFacts.

Lemma call_next_started_any_network
  (network other : ClientConfig -> Request -> UpstreamError + UpstreamStream)
  (k : nat) (g : Generator) :
  started g = true -> call_next other k g = call_next network k g.
Proof.
  revert g. induction k as [| k IH]; intros g Hstarted; [reflexivity |].
  destruct g as [client request | rest ending |]; [discriminate Hstarted | |].
  - cbn [call_next next]. f_equal.
    apply IH. apply (next_started network (InLoop rest ending)).
  - now rewrite !call_next_finished.
Qed.

Lemma call_next_start
  (network : ClientConfig -> Request -> UpstreamError + UpstreamStream)
  (client : ClientConfig) (request : Request) (upstream : UpstreamStream)
  (k : nat) :
  network client request = inr upstream ->
  call_next network k (NotStarted client request)
  = call_next network k
      (InLoop (stream_chunks upstream) (stream_end upstream)).
Proof.
  intros Hnet. destruct k as [| k]; [reflexivity |].
  cbn [call_next next]. now rewrite Hnet.
Qed.

(** X1: when the upstream stream of an adapter breaks after some chunks,
    the adapter has yielded the fragment of every chunk delivered before
    the failure, in order, and then throws the upstream's own error; the
    fragments already yielded stay as they are.  This holds of each
    adapter on its own provider, whatever the other provider does. *)
Theorem broken_stream_keeps_fragments
  (provider : Provider)
  (env : string -> option string)
  (network : ClientConfig -> Request -> UpstreamError + UpstreamStream)
  (systemPrompt : string) (messages : list Message)
  (params : option CompletionParams) (model : option string)
  (chunks : list Chunk) (e : UpstreamError) (fuel : nat) :
  network (provider_client env provider)
    (provider_request provider systemPrompt messages params model)
  = inr {| stream_chunks := chunks; stream_end := StreamThrows e |} ->
  length chunks < fuel ->
  iterate network fuel
    (createCompletion provider env systemPrompt messages params model)
  = Some {| fragments := map fragment_of chunks; completion := Thrown e |}.
Proof.
  intros Hnet Hfuel. rewrite createCompletion_start.
  now rewrite (iterate_accepted network _ _ _ fuel Hnet Hfuel).
Qed.

Lemma broken_stream_keeps_fragments_witness :
  iterate
    (deepseek_only
       (inr {| stream_chunks := [chunk_with (Some "A"); chunk_with (Some "B")];
               stream_end := StreamThrows (StreamBroken "reset") |})) 3
    (createDeepSeekCompletion stub_env "You are helpful." [] None None)
  = Some {| fragments := ["A"; "B"];
            completion := Thrown (StreamBroken "reset") |}.
Proof.
  apply (broken_stream_keeps_fragments DeepSeek stub_env
           (deepseek_only
              (inr {| stream_chunks :=
                        [chunk_with (Some "A"); chunk_with (Some "B")];
                      stream_end := StreamThrows (StreamBroken "reset") |}))
           "You are helpful." [] None None
           [chunk_with (Some "A"); chunk_with (Some "B")]
           (StreamBroken "reset") 3).
  - reflexivity.
  - simpl. lia.
Defined.

(** X2: the results of any number of successive [next()] calls on an
    adapter whose request was accepted are, in order: one yield per
    upstream chunk, carrying that chunk's fragment; then the end of the
    stream, a return or the upstream's error; and a plain return for
    every call after that.  This holds of each adapter on its own
    provider, whatever the other provider does. *)
Theorem next_results_in_order
  (provider : Provider)
  (env : string -> option string)
  (network : ClientConfig -> Request -> UpstreamError + UpstreamStream)
  (systemPrompt : string) (messages : list Message)
  (params : option CompletionParams) (model : option string)
  (upstream : UpstreamStream) (k : nat) :
  let results :=
    (map (fun chunk => Yielded (fragment_of chunk)) (stream_chunks upstream)
     ++ [match stream_end upstream with
         | EndOfStream => Returned
         | StreamThrows e => Thrown e
         end])%list in
  network (provider_client env provider)
    (provider_request provider systemPrompt messages params model)
  = inr upstream ->
  call_next network k
    (createCompletion provider env systemPrompt messages params model)
  = map (fun i => nth i results Returned) (seq 0 k).
Proof.
  intros results Hnet. rewrite createCompletion_start.
  rewrite (call_next_start network _ _ upstream k Hnet).
  rewrite call_next_loop. cbn [loop_trace fragments completion].
  rewrite map_map. reflexivity.
Qed.

Lemma next_results_in_order_witness :
  call_next (deepseek_only (inr (stream_of [Some "Hel"; Some "lo"]))) 5
    (createDeepSeekCompletion stub_env "You are helpful." [] None None)
  = [Yielded "Hel"; Yielded "lo"; Returned; Returned; Returned].
Proof.
  apply (next_results_in_order DeepSeek stub_env
           (deepseek_only (inr (stream_of [Some "Hel"; Some "lo"])))
           "You are helpful." [] None None
           (stream_of [Some "Hel"; Some "lo"]) 5).
  reflexivity.
Defined.

(** X3: a generator asks the provider at most once.  Whatever the state
    of a generator, after one [next()] the results of all later calls are
    fixed: they are the same if the provider would from then on answer in
    any other way. *)
Theorem provider_is_asked_once
  (network other : ClientConfig -> Request -> UpstreamError + UpstreamStream)
  (g : Generator) (k : nat) :
  call_next other k (snd (next network g))
  = call_next network k (snd (next network g)).
Proof.
  apply call_next_started_any_network. apply next_started.
Qed.

(** X4: after a rejected provider call an adapter does not retry: the
    first [next()] throws the error, and every later [next()] reports a
    finished generator, even when the provider would accept the request
    by then. *)
Theorem rejected_generator_stays_finished
  (env : string -> option string)
  (network later : ClientConfig -> Request -> UpstreamError + UpstreamStream)
  (systemPrompt : string) (messages : list Message)
  (params : option CompletionParams) (model : option string)
  (e : UpstreamError) (k : nat) :
  network (deepseekClient env)
    (deepseek_request systemPrompt messages params model) = inl e ->
  call_next network (S k)
    (createDeepSeekCompletion env systemPrompt messages params model)
  = Thrown e :: repeat Returned k
  /\ call_next later k
       (snd (next network
               (createDeepSeekCompletion env systemPrompt messages params
                  model)))
     = repeat Returned k.
Proof.
  intros Hnet. unfold createDeepSeekCompletion.
  cbn [call_next next]. rewrite Hnet. cbn [fst snd].
  now rewrite !call_next_finished.
Qed.

Lemma rejected_generator_stays_finished_witness :
  call_next (stub_network (inl ConnectionRefused)) 3
    (createDeepSeekCompletion stub_env "You are helpful." [] None None)
  = [Thrown ConnectionRefused; Returned; Returned].
Proof.
  apply (rejected_generator_stays_finished stub_env
           (stub_network (inl ConnectionRefused))
           (stub_network (inr (stream_of [Some "late"])))
           "You are helpful." [] None None ConnectionRefused 2).
  reflexivity.
Defined.

(** * Further properties of the fragments *)

Lemma join_fragments (chunks : list Chunk) :
  join (map fragment_of chunks) = join (present_contents chunks).
Proof.
  induction chunks as [| chunk rest IH]; [reflexivity |].
  cbn [map join fold_right present_contents flat_map].
  fold (join (map fragment_of rest)). rewrite IH.
  unfold fragment_of.
  destruct (first_delta_content chunk) as [[| a s] |]; reflexivity.
Qed.

Lemma filter_fragments (chunks : list Chunk) :
  filter nonempty (map fragment_of chunks) = present_contents chunks.
Proof.
  induction chunks as [| chunk rest IH]; [reflexivity |].
  cbn [map filter present_contents flat_map]. rewrite IH.
  unfold fragment_of.
  destruct (first_delta_content chunk) as [[| a s] |]; reflexivity.
Qed.

(** X6: the empty fragments an adapter yields carry no text.  Appending
    all fragments of a complete iteration gives the non-empty delta
    contents of the upstream chunks appended in order, and dropping the
    empty fragments leaves exactly those contents. *)
Theorem joined_fragments_are_the_contents
  (env : string -> option string)
  (network : ClientConfig -> Request -> UpstreamError + UpstreamStream)
  (systemPrompt : string) (messages : list Message)
  (params : option CompletionParams) (model : option string)
  (upstream : UpstreamStream) :
  network (deepseekClient env)
    (deepseek_request systemPrompt messages params model) = inr upstream ->
  exists t,
    iterate network (S (length (stream_chunks upstream)))
      (createDeepSeekCompletion env systemPrompt messages params model)
    = Some t
    /\ join (fragments t) = join (present_contents (stream_chunks upstream))
    /\ filter nonempty (fragments t)
       = present_contents (stream_chunks upstream).
Proof.
  intros Hnet.
  exists (loop_trace (stream_chunks upstream) (stream_end upstream)).
  split; [| split].
  - rewrite iterate_total.
    + unfold createDeepSeekCompletion, trace_of, start_trace. now rewrite Hnet.
    + unfold createDeepSeekCompletion, calls_needed, trace_of, start_trace.
      rewrite Hnet. cbn [loop_trace fragments]. rewrite length_map. lia.
  - apply join_fragments.
  - apply filter_fragments.
Qed.

Lemma joined_fragments_are_the_contents_witness :
  exists t,
    iterate (stub_network (inr (stream_of hello_world_contents))) 5
      (createDeepSeekCompletion stub_env "You are helpful." [] None None)
    = Some t
    /\ join (fragments t) = "Hello world".
Proof.
  destruct (joined_fragments_are_the_contents stub_env
              (stub_network (inr (stream_of hello_world_contents)))
              "You are helpful." [] None None
              (stream_of hello_world_contents) eq_refl)
    as [t [Hrun [Hjoin _]]].
  exists t. split.
  - exact Hrun.
  - rewrite Hjoin. reflexivity.
Defined.

(** * Further properties of the server *)

(** X8: what a client observes on a connection is exactly one
    acknowledgement per hello event it sent, in the order of the events,
    each "hello " followed by the event's text; connecting,
    disconnecting, socket errors and all other events send nothing to the
    client. *)
Theorem client_sees_only_hello_answers
  (id : string) (events : list SocketEvent) :
  filter client_visible (connection_effects id events)
  = map (fun text => Callback ("hello " ++ text)) (hello_texts events).
Proof.
  unfold connection_effects.
  rewrite filter_app. cbn [on_connection filter client_visible app].
  induction events as [| ev rest IH]; [reflexivity |].
  cbn [flat_map hello_texts]. fold (hello_texts rest).
  rewrite filter_app, map_app, IH. f_equal.
  destruct ev as [name text | reason | error]; cbn [handle].
  - unfold emit_event, listener.
    destruct (String.eqb name "hello"); [reflexivity |].
    destruct (String.eqb name "disconnect"); [reflexivity |].
    destruct (String.eqb name "error"); reflexivity.
  - reflexivity.
  - reflexivity.
Qed.

(** X10: the listening port falls back to the default "3001" both when
    SOCKETIO_PORT is not set and when it is set to the empty string: in
    either case the port is what [parseInt] makes of "3001". *)
Theorem port_falls_back_when_unset_or_empty
  (env : string -> option string) (parseInt : string -> number) :
  env "SOCKETIO_PORT" = None \/ env "SOCKETIO_PORT" = Some "" ->
  port env parseInt = parseInt "3001".
Proof.
  unfold port. intros [Henv | Henv]; now rewrite Henv.
Qed.

Lemma port_falls_back_when_unset_or_empty_witness :
  port (fun _ => Some "")
    (fun digits => if String.eqb digits "3001" then 3001%float else 0%float)
  = 3001%float.
Proof.
  apply (port_falls_back_when_unset_or_empty (fun _ => Some "")
           (fun digits =>
              if String.eqb digits "3001" then 3001%float else 0%float)).
  right. reflexivity.
Defined.

(** X11: whatever events a connection receives, the connection handler
    never calls an adapter: no upstream completion stream is started on
    behalf of any connection. *)
Theorem connection_opens_no_stream (id : string) (events : list SocketEvent) :
  streams_started (connection_effects id events) = 0.
Proof.
  unfold streams_started, connection_effects.
  rewrite filter_app. cbn [on_connection filter starts_stream app].
  induction events as [| ev rest IH].
  - reflexivity.
  - cbn [flat_map]. rewrite filter_app, handle_starts_no_stream. exact IH.
Qed.
